(** * solsim: celestial bodies and Newton's law of gravitation

    A shallow embedding of [solsim/gravity.py] and
    [solsim/solar_system_objects.py].

    Numbers.  The scalar path of the force law is modelled twice.
    Module [GravityFloat] computes in IEEE binary64 ([SpecFloat], precision
    53), with the exceptions Python raises on floats: it is the model for
    what the function returns.  Modules [Gravity] and [SolarSystemObjects]
    idealise floats as exact rationals ([Q]), with the extended type
    [npfloat] for what numpy's division by zero yields; they carry the
    properties that do not depend on rounding: which exception is raised,
    shapes, signs, and bounds of the default vectors. *)

From Stdlib Require Import QArith Lqa Lia List String Ascii Bool Arith.
From Stdlib Require Import DecimalString.
From Stdlib Require Import SpecFloat.
Import ListNotations.
Open Scope Q_scope.

(** ** Exceptions and results *)

Inductive exn : Type :=
| TypeError (msg : string)
| IndexError (msg : string)
| ValueError (msg : string)
| AttributeError (msg : string)
| ZeroDivisionError
| OverflowError (msg : string).

Inductive result (A : Type) : Type :=
| Ok (a : A)
| Raise (e : exn).
Arguments Ok {A} a.
Arguments Raise {A} e.

Definition bind {A B} (r : result A) (k : A -> result B) : result B :=
  match r with
  | Ok a => k a
  | Raise e => Raise e
  end.

Notation "x <- r ;; k" := (bind r (fun x => k))
  (at level 61, r at next level, right associativity).

Definition is_zero (x : Q) : bool := Qeq_bool x 0.

(** ** gravity.py *)

Module Gravity.

(** A float64 entry of a numpy result: a finite number or one of the IEEE
    special values that a division by zero yields. *)
Inductive npfloat : Type :=
| Finite (x : Q)
| PInf
| NInf
| NaN.



(** An argument of [universal_gravity]: "float or numpy array". *)
Inductive operand : Type :=
| Scalar (x : Q)
| Array (xs : list Q).

(** What [universal_gravity] returns: a Python float on the scalar path, a
    float64 array as soon as one operand is an array. *)
Inductive value : Type :=
| VScalar (x : Q)
| VArray (xs : list npfloat).

Definition broadcast_error : exn :=
  ValueError "operands could not be broadcast together".

(** numpy broadcasting of two one-dimensional arrays: equal lengths, or one
    of them of length 1. *)
Definition broadcast2 {A} (f : Q -> Q -> A) (xs ys : list Q)
  : result (list A) :=
  if Nat.eqb (List.length xs) (List.length ys) then
    Ok (map (fun p => f (fst p) (snd p)) (combine xs ys))
  else
    match xs, ys with
    | [x], _ => Ok (map (f x) ys)
    | _, [y] => Ok (map (fun x => f x y) xs)
    | _, _ => Raise broadcast_error
    end.

(** [a * b], without rounding. *)
Definition mul (a b : operand) : result operand :=
  match a, b with
  | Scalar x, Scalar y => Ok (Scalar (x * y))
  | Scalar x, Array ys => Ok (Array (map (Qmult x) ys))
  | Array xs, Scalar y => Ok (Array (map (fun x => x * y) xs))
  | Array xs, Array ys => l <- broadcast2 Qmult xs ys ;; Ok (Array l)
  end.

(** [a ** 2], without rounding: the square is zero only for a zero, and
    never overflows; [GravityFloat.py_pow2] is the float square. *)
Definition pow2 (a : operand) : operand :=
  match a with
  | Scalar x => Scalar (x ^ 2)
  | Array xs => Array (map (fun x => x ^ 2) xs)
  end.

(** numpy's float64 true division of one entry: no exception, a zero
    divisor gives an infinity of the sign of the dividend, or nan for 0/0. *)
Definition np_divide (n d : Q) : npfloat :=
  if is_zero d then
    if is_zero n then NaN
    else if Qle_bool 0 n then PInf else NInf
  else Finite (n / d).

(** [a / b]: Python float division raises on a zero divisor; as soon as one
    side is an array the division is numpy's. *)
Definition truediv (a b : operand) : result value :=
  match a, b with
  | Scalar x, Scalar y =>
      if is_zero y then Raise ZeroDivisionError else Ok (VScalar (x / y))
  | Scalar x, Array ys => Ok (VArray (map (np_divide x) ys))
  | Array xs, Scalar y => Ok (VArray (map (fun x => np_divide x y) xs))
  | Array xs, Array ys => l <- broadcast2 np_divide xs ys ;; Ok (VArray l)
  end.

(** Shape agreement with a one-dimensional array of [n] entries: a scalar
    fits any shape, an array fits when it has [n] entries. *)
Definition fits (n : nat) (a : operand) : Prop :=
  match a with
  | Scalar _ => True
  | Array xs => List.length xs = n
  end.

(** The entry of an operand that meets entry [i] of the array it is
    combined with. *)
Definition entry (i : nat) (a : operand) : option Q :=
  match a with
  | Scalar x => Some x
  | Array xs => nth_error xs i
  end.

Section WithConstants.

(** [astropy.constants.G.value], the default of the parameter [G]. *)
Variable c_G_value : Q.

(** [def universal_gravity(m1, m2, r, G=c.G.value):
       return G * (m1 * m2) / r**2]
    Evaluation order is Python's: [m1 * m2], [G * _], [r**2], then [/]. *)
Definition universal_gravity (m1 m2 r : operand) (G : option Q)
  : result value :=
  let G := match G with Some g => g | None => c_G_value end in
  m12 <- mul m1 m2 ;;
  num <- mul (Scalar G) m12 ;;
  truediv num (pow2 r).

End WithConstants.

(** The CODATA 2018 value of the constant, 6.6743e-11, for running the
    function on concrete inputs. *)
Definition G_2018 : Q := 66743 / 10 ^ 15.

End Gravity.

(** ** gravity.py on binary64 floats, scalar path *)

Module GravityFloat.

Local Open Scope Z_scope.

(** Python's [float] is IEEE binary64. *)
Definition prec : Z := 53.
Definition emax : Z := 1024.
Definition float : Type := spec_float.

(** [x * y] and the IEEE quotient, rounded to nearest even. *)
Definition fmul : float -> float -> float := SFmul prec emax.
Definition fdiv : float -> float -> float := SFdiv prec emax.

(** [x == 0.0]: either zero. *)
Definition float_is_zero (x : float) : bool :=
  match x with
  | S754_zero _ => true
  | _ => false
  end.

(** A finite [r] whose square is beyond the largest float. *)
Definition square_overflows (r : float) : bool :=
  match r, fmul r r with
  | S754_finite _ _ _, S754_infinity _ => true
  | _, _ => false
  end.

Definition range_error : exn :=
  OverflowError "(34, 'Numerical result out of range')".

(** [r ** 2] on a float: C's [pow(r, 2.0)], taken to return the correctly
    rounded square; Python raises OverflowError when a finite [r]
    overflows, and returns 0.0 when the square underflows. *)
Definition py_pow2 (r : float) : result float :=
  if square_overflows r then Raise range_error else Ok (fmul r r).

(** [x / y] on floats: Python tests the divisor before it divides. *)
Definition py_truediv (x y : float) : result float :=
  if float_is_zero y then Raise ZeroDivisionError else Ok (fdiv x y).

Section WithConstants.

(** [astropy.constants.G.value], the default of the parameter [G]. *)
Variable c_G_value : float.

(** [def universal_gravity(m1, m2, r, G=c.G.value):
       return G * (m1 * m2) / r**2]
    on float arguments; float multiplication raises nothing.  The integer
    arguments of the tests, 1 and 0, act as the floats 1.0 and 0.0. *)
Definition universal_gravity (m1 m2 r : float) (G : option float)
  : result float :=
  let G := match G with Some g => g | None => c_G_value end in
  let num := fmul G (fmul m1 m2) in
  sq <- py_pow2 r ;;
  py_truediv num sq.

End WithConstants.



(** 6.6743e-11, the CODATA 2018 value of G *)
Definition G_2018 : float := S754_finite false 5163989502626508 (-86).

End GravityFloat.

(** ** solar_system_objects.py *)

Module SolarSystemObjects.

Local Open Scope string_scope.

(** Limits on solar system sizes (AU) and velocities (km/s). *)
Definition MINIMUM_SIZE : Q := 3 # 10.
Definition MAXIMUM_SIZE : Q := 50.
Definition MINIMUM_VELOCITY : Q := 20.
Definition MAXIMUM_VELOCITY : Q := 50.

(** *** numpy arrays *)

(** The arrays the module builds: zero-dimensional (from a scalar) or
    one-dimensional. *)
Inductive ndarray : Type :=
| Arr0 (x : Q)
| Arr1 (xs : list Q).

(** [a.size]: the number of entries; a zero-dimensional array has one. *)
Definition size (a : ndarray) : nat :=
  match a with
  | Arr0 _ => 1%nat
  | Arr1 xs => List.length xs
  end.

Definition entries (a : ndarray) : list Q :=
  match a with
  | Arr0 x => [x]
  | Arr1 xs => xs
  end.

(** What a caller passes for [position] or [velocity]. *)
Inductive array_like : Type :=
| PyFloat (x : Q)
| PyList (xs : list Q)
| PyArray (a : ndarray).

(** [np.asarray(p)] *)
Definition asarray (p : array_like) : ndarray :=
  match p with
  | PyFloat x => Arr0 x
  | PyList xs => Arr1 xs
  | PyArray a => a
  end.

(** [str(type(p))], as [str.format] renders it. *)
Definition type_str (p : array_like) : string :=
  match p with
  | PyFloat _ => "<class 'float'>"
  | PyList _ => "<class 'list'>"
  | PyArray _ => "<class 'numpy.ndarray'>"
  end.

(** [np.zeros(n)] *)
Definition zeros (n : nat) : ndarray := Arr1 (repeat 0 n).

(** [k * a + c] with scalars [k], [c]: element-wise, same shape. *)
Definition scale_shift (k : Q) (a : ndarray) (c : Q) : ndarray :=
  match a with
  | Arr0 x => Arr0 (k * x + c)
  | Arr1 xs => Arr1 (map (fun x => k * x + c) xs)
  end.

(** *** The process-wide random state *)

(** The generator is the sequence of uniform draws it will deliver and
    the number already consumed. *)
Record rng : Type := { draws : nat -> Q; cursor : nat }.

(** [np.random.rand(n)]: the next [n] draws, as a one-dimensional array. *)
Definition np_random_rand (n : nat) (g : rng) : ndarray * rng :=
  (Arr1 (map (draws g) (seq (cursor g) n)),
   {| draws := draws g; cursor := (cursor g + n)%nat |}).

(** *** Objects *)

(** The attributes of an instance; [None] is an attribute not yet
    assigned. *)
Record object : Type := {
  mass : option Q;
  position : option ndarray;
  velocity : option ndarray;
  name : option string
}.

Definition fresh : object :=
  {| mass := None; position := None; velocity := None; name := None |}.

(** The state a constructor runs in: the instance under construction and
    the random state. *)
Record world : Type := { self : object; random : rng }.

(** A computation that may assign attributes, draw random numbers and
    raise; the state reached is kept when it raises. *)
Definition M (A : Type) : Type := world -> result A * world.

Definition ret {A} (a : A) : M A := fun w => (Ok a, w).

Definition raise {A} (e : exn) : M A := fun w => (Raise e, w).

Definition bindM {A B} (m : M A) (k : A -> M B) : M B :=
  fun w =>
    match m w with
    | (Ok a, w') => k a w'
    | (Raise e, w') => (Raise e, w')
    end.

Notation "m >> k" := (bindM m (fun _ => k))
  (at level 62, right associativity).

Definition set_mass (m : Q) : M unit := fun w =>
  (Ok tt, {| self := {| mass := Some m; position := position (self w);
                        velocity := velocity (self w);
                        name := name (self w) |};
             random := random w |}).

Definition set_position (a : ndarray) : M unit := fun w =>
  (Ok tt, {| self := {| mass := mass (self w); position := Some a;
                        velocity := velocity (self w);
                        name := name (self w) |};
             random := random w |}).

Definition set_velocity (a : ndarray) : M unit := fun w =>
  (Ok tt, {| self := {| mass := mass (self w);
                        position := position (self w);
                        velocity := Some a; name := name (self w) |};
             random := random w |}).

Definition set_name (n : string) : M unit := fun w =>
  (Ok tt, {| self := {| mass := mass (self w);
                        position := position (self w);
                        velocity := velocity (self w); name := Some n |};
             random := random w |}).

Definition rand (n : nat) : M ndarray := fun w =>
  let (a, g) := np_random_rand n (random w) in
  (Ok a, {| self := self w; random := g |}).

Definition shape_error (field : string) (p : array_like) : exn :=
  TypeError ("Expected array-like for " ++ field ++ ", got " ++ type_str p).

(** [SolarSystemObject.__init__(self, mass, position=None, velocity=None,
    name="Object")], after the default of [name] has been filled in. *)
Definition SolarSystemObject__init__
  (m : Q) (pos vel : option array_like) (nm : string) : M unit :=
  set_mass m >>
  match pos with
  | Some p =>
      set_position (asarray p) >>
      if (size (asarray p) <? 2)%nat
      then raise (shape_error "position" p)
      else ret tt
  | None =>
      bindM (rand 2) (fun u =>
      set_position
        (scale_shift (MAXIMUM_SIZE - MINIMUM_SIZE) u MINIMUM_SIZE))
  end >>
  match vel with
  | Some v =>
      set_velocity (asarray v) >>
      if (size (asarray v) <? 2)%nat
      then raise (shape_error "velocity" v)
      else ret tt
  | None =>
      bindM (rand 2) (fun u =>
      set_velocity
        (scale_shift (MAXIMUM_VELOCITY - MINIMUM_VELOCITY) u
           MINIMUM_VELOCITY))
  end >>
  set_name nm.

(** [Star.__init__(self, mass, name="Star")] *)
Definition Star__init__ (m : Q) (nm : string) : M unit :=
  SolarSystemObject__init__ m (Some (PyArray (zeros 2)))
    (Some (PyArray (zeros 2))) nm.

(** [Asteroid.__init__] and [Comet.__init__] pass everything on. *)
Definition Asteroid__init__
  (m : Q) (pos vel : option array_like) (nm : string) : M unit :=
  SolarSystemObject__init__ m pos vel nm.

Definition Comet__init__
  (m : Q) (pos vel : option array_like) (nm : string) : M unit :=
  SolarSystemObject__init__ m pos vel nm.

(** [Planet.__index__(self, mass, position=None, velocity=None,
    name="Planet")]: it calls [__index__] on [super(Planet, self)], which
    no base defines.  Nothing in construction calls it. *)
Definition Planet__index__
  (m : Q) (pos vel : option array_like) (nm : string) : M unit :=
  raise (AttributeError "'super' object has no attribute '__index__'").

(** *** The class hierarchy *)

Inductive class : Type :=
| SolarSystemObject | Star | Planet | GasPlanet | TerrestrialPlanet
| DwarfPlanet | Asteroid | Comet.

(** The base named in each [class] statement. *)
Definition base (c : class) : option class :=
  match c with
  | SolarSystemObject => None
  | Star | Planet | Asteroid | Comet => Some SolarSystemObject
  | GasPlanet | TerrestrialPlanet | DwarfPlanet => Some Planet
  end.

Inductive method : Type := m__init__ | m__index__ | m__repr__.

(** The methods each class body defines itself.  [Planet] defines
    [__index__] and [__repr__], and no [__init__]. *)
Definition defines (c : class) (m : method) : bool :=
  match c, m with
  | SolarSystemObject, (m__init__ | m__repr__) => true
  | Star, (m__init__ | m__repr__) => true
  | Planet, (m__index__ | m__repr__) => true
  | (GasPlanet | TerrestrialPlanet | DwarfPlanet), m__repr__ => true
  | (Asteroid | Comet), (m__init__ | m__repr__) => true
  | _, _ => false
  end.

(** The method resolution order: the class, then its bases in turn. *)
Fixpoint mro_from (depth : nat) (c : class) : list class :=
  c :: match depth, base c with
       | S d, Some b => mro_from d b
       | _, _ => []
       end.

Definition mro (c : class) : list class := mro_from 2 c.

(** Attribute lookup on the class: the first class of the order that
    defines the method. *)
Definition resolve (c : class) (m : method) : option class :=
  find (fun k => defines k m) (mro c).

(** The arguments of a constructor call, by parameter name; [None] is an
    argument left out. *)
Record call : Type := {
  a_mass : Q;
  a_position : option array_like;
  a_velocity : option array_like;
  a_name : option string
}.

Definition default {A} (d : A) (o : option A) : A :=
  match o with Some a => a | None => d end.

Definition unexpected_argument (p : string) : exn :=
  TypeError ("__init__() got an unexpected keyword argument '" ++ p ++ "'").

(** [c(mass, position=..., velocity=..., name=...)] run on the instance:
    the [__init__] that the class resolves to, with the default of [name]
    from that method's own signature. *)
Definition construct (c : class) (a : call) : M unit :=
  match resolve c m__init__ with
  | Some Star =>
      match a_position a, a_velocity a with
      | Some _, _ => raise (unexpected_argument "position")
      | None, Some _ => raise (unexpected_argument "velocity")
      | None, None => Star__init__ (a_mass a) (default "Star" (a_name a))
      end
  | Some Asteroid =>
      Asteroid__init__ (a_mass a) (a_position a) (a_velocity a)
        (default "Asteroid" (a_name a))
  | Some Comet =>
      Comet__init__ (a_mass a) (a_position a) (a_velocity a)
        (default "Comet" (a_name a))
  | _ =>
      SolarSystemObject__init__ (a_mass a) (a_position a) (a_velocity a)
        (default "Object" (a_name a))
  end.

(** Instantiation: [construct] on a new instance, under random state
    [g]. *)
Definition new (c : class) (a : call) (g : rng) : result unit * world :=
  construct c a {| self := fresh; random := g |}.

(** The test [__init__] applies to an argument: left out, or of size at
    least 2. *)
Definition accepted (p : option array_like) : bool :=
  match p with
  | None => true
  | Some p => negb (size (asarray p) <? 2)%nat
  end.

(** The default of [name] in the signature of the [__init__] a class
    resolves to. *)
Definition signature_name (c : class) : string :=
  match resolve c m__init__ with
  | Some Star => "Star"
  | Some Asteroid => "Asteroid"
  | Some Comet => "Comet"
  | _ => "Object"
  end.

(** An instance with every attribute assigned. *)
Definition instance (m : Q) (p v : ndarray) (n : string) : object :=
  {| mass := Some m; position := Some p; velocity := Some v;
     name := Some n |}.

(** A sample random state, for running constructors on concrete inputs:
    the draws cycle through 0, 1/4, 1/2, 3/4. *)
Definition sample_rng : rng :=
  {| draws := fun i => Z.of_nat (i mod 4) # 4; cursor := 0 |}.

(** What [__init__] stores for an argument, and the random state it
    leaves: the argument as an array, or two fresh draws scaled into
    [[lo, hi]]. *)
Definition stored (lo hi : Q) (p : option array_like) (g : rng)
  : ndarray * rng :=
  match p with
  | Some p => (asarray p, g)
  | None =>
      (scale_shift (hi - lo) (fst (np_random_rand 2 g)) lo,
       snd (np_random_rand 2 g))
  end.

(** *** Textual summary *)

Definition str_nat (n : nat) : string :=
  NilEmpty.string_of_uint (Nat.to_uint n).

Definition replacement_index_error (i : nat) : exn :=
  IndexError ("Replacement index " ++ str_nat i
                ++ " out of range for positional args tuple").

(** [tpl.format( *args )] for templates whose replacement fields are all the
    automatically numbered [{}]; [next] is the number of the next field.
    The source has no other brace form. *)
Fixpoint format_from (next : nat) (tpl : string) (args : list string)
  : result string :=
  match tpl with
  | EmptyString => Ok EmptyString
  | String "{" (String "}" rest) =>
      match nth_error args next with
      | Some a => s <- format_from (S next) rest args ;; Ok (a ++ s)
      | None => Raise (replacement_index_error next)
      end
  | String "{" _ => Raise (ValueError "unsupported replacement field")
  | String "}" _ => Raise (ValueError "Single '}' encountered in format string")
  | String ch rest => s <- format_from next rest args ;; Ok (String ch s)
  end.

Definition format (tpl : string) (args : list string) : result string :=
  format_from 0 tpl args.

(** [self.attr]: an attribute never assigned raises. *)
Definition getattr {A} (f : object -> option A) (attr : string) (o : object)
  : result A :=
  match f o with
  | Some a => Ok a
  | None => Raise (AttributeError attr)
  end.

(** Python's [x / y] on floats. *)
Definition truediv (x y : Q) : result Q :=
  if is_zero y then Raise ZeroDivisionError else Ok (x / y).

Section Repr.

(** [str] of a float and of an array, as [str.format] calls them. *)
Variable str_float : Q -> string.
Variable str_array : ndarray -> string.

(** [astropy.constants]: [M_sun.value], [M_jup.value], [M_earth.value]. *)
Variables M_sun M_jup M_earth : Q.

(** The four-argument summary shared by every class but [Star]: the
    template has six replacement fields. *)
Definition summary (unit_name : string) (n : string) (m : Q) (o : object)
  : result string :=
  p <- getattr position "position" o ;;
  v <- getattr velocity "velocity" o ;;
  format ("{}: Mass = {} " ++ unit_name
            ++ ", position = ({}, {}) AU, velocity = ({}, {}) km/s")
         [n; str_float m; str_array p; str_array v].

Definition SolarSystemObject__repr__ (o : object) : result string :=
  n <- getattr name "name" o ;;
  m <- getattr mass "mass" o ;;
  summary "kg" n m o.

Definition Star__repr__ (o : object) : result string :=
  n <- getattr name "name" o ;;
  m <- getattr mass "mass" o ;;
  x <- truediv m M_sun ;;
  format "{}: Mass = {} M_sun" [n; str_float x].

Definition GasPlanet__repr__ (o : object) : result string :=
  n <- getattr name "name" o ;;
  m <- getattr mass "mass" o ;;
  x <- truediv m M_jup ;;
  summary "M_jup" n x o.

Definition TerrestrialPlanet__repr__ (o : object) : result string :=
  n <- getattr name "name" o ;;
  m <- getattr mass "mass" o ;;
  x <- truediv m M_earth ;;
  summary "M_earth" n x o.

Definition M_pluto : Q := 1309 * 10 ^ 19.

Definition DwarfPlanet__repr__ (o : object) : result string :=
  n <- getattr name "name" o ;;
  m <- getattr mass "mass" o ;;
  x <- truediv m M_pluto ;;
  summary "M_pluto" n x o.

(** [repr(o)] for an instance of class [c]. *)
Definition repr (c : class) (o : object) : result string :=
  match resolve c m__repr__ with
  | Some Star => Star__repr__ o
  | Some GasPlanet => GasPlanet__repr__ o
  | Some TerrestrialPlanet => TerrestrialPlanet__repr__ o
  | Some DwarfPlanet => DwarfPlanet__repr__ o
  | _ => SolarSystemObject__repr__ o
  end.

End Repr.

End SolarSystemObjects.

(** ** Comparing classes *)

Definition class_eq_dec (c d : SolarSystemObjects.class) : {c = d} + {c <> d}.
Proof. decide equality. Defined.

(** ** tests/test_solar_system_objects.py *)

Module Tests.
Import SolarSystemObjects.
Local Open Scope string_scope.

(** The Python values the two tests handle: a class, a boolean, a list of
    classes. *)
Inductive pyobj : Type :=
| PyClass (c : class)
| PyBool (b : bool)
| PyClasses (l : list class).

(** [classes = [sso.SolarSystemObject, sso.Star, sso.Planet, ...]] *)
Definition classes : list class :=
  [SolarSystemObject; Star; Planet; GasPlanet; TerrestrialPlanet;
   DwarfPlanet; Asteroid; Comet].

Fixpoint classes_eqb (l l' : list class) : bool :=
  match l, l' with
  | [], [] => true
  | c :: l, d :: l' =>
      (if class_eq_dec c d then true else false) && classes_eqb l l'
  | _, _ => false
  end.

(** [a == b]: classes by identity, booleans by value, lists entry by
    entry; values of different kinds are not equal. *)
Definition py_eq (a b : pyobj) : bool :=
  match a, b with
  | PyClass c, PyClass d => if class_eq_dec c d then true else false
  | PyBool x, PyBool y => Bool.eqb x y
  | PyClasses l, PyClasses l' => classes_eqb l l'
  | _, _ => false
  end.

(** [a != b] *)
Definition py_ne (a b : pyobj) : bool := negb (py_eq a b).

(** [a[i]] with a boolean subscript: a list takes [True] as index 1 and
    [False] as index 0; other values are not subscriptable. *)
Definition getitem (a : pyobj) (i : bool) : result pyobj :=
  match a with
  | PyClasses l =>
      match nth_error l (if i then 1 else 0) with
      | Some c => Ok (PyClass c)
      | None => Raise (IndexError "list index out of range")
      end
  | PyClass _ => Raise (TypeError "'type' object is not subscriptable")
  | PyBool _ => Raise (TypeError "'bool' object is not subscriptable")
  end.

(** [iter(a)], as a [for] statement calls it: only the list is iterable. *)
Definition iter (a : pyobj) : result (list pyobj) :=
  match a with
  | PyClasses l => Ok (map PyClass l)
  | PyClass _ => Raise (TypeError "'type' object is not iterable")
  | PyBool _ => Raise (TypeError "'bool' object is not iterable")
  end.

(** [for x in l: body(x)] *)
Fixpoint for_each (l : list pyobj) (body : pyobj -> result unit)
  : result unit :=
  match l with
  | [] => Ok tt
  | x :: l => _ <- body x ;; for_each l body
  end.

Inductive outcome : Type :=
| Passed
| Failed (msg : string)
| Errored (e : exn).

(** [with pytest.raises(TypeError): body] *)
Definition pytest_raises_TypeError (body : result unit) : outcome :=
  match body with
  | Raise (TypeError _) => Passed
  | Raise e => Errored e
  | Ok _ => Failed "DID NOT RAISE <class 'TypeError'>"
  end.

Section WithConstructors.

(** What calling a value with the three positional arguments
    [(mass, position, velocity)] does. *)
Variable call3 : pyobj -> Q -> array_like -> array_like -> result unit.

(** [def test_bad_position()] *)
Definition test_bad_position : outcome :=
  pytest_raises_TypeError
    (it <- getitem (PyClasses classes)
             (py_ne (PyClasses classes) (PyClass Star)) ;;
     l <- iter it ;;
     for_each l (fun class_ =>
       _ <- call3 class_ 200 (PyFloat 2) (PyList [20; 30]) ;;
       call3 class_ 200 (PyList [2]) (PyList [20; 30]))).

(** [def test_bad_velocity()] *)
Definition test_bad_velocity : outcome :=
  pytest_raises_TypeError
    (it <- getitem (PyClasses classes)
             (py_ne (PyClasses classes) (PyClass Star)) ;;
     l <- iter it ;;
     for_each l (fun class_ =>
       _ <- call3 class_ 200 (PyList [2; 6]) (PyFloat 20) ;;
       call3 class_ 200 (PyList [2; 6]) (PyList [20]))).

End WithConstructors.

End Tests.

(** ** Equality of results up to the representation of rationals *)

Module Equivalence.
Import Gravity.

(** Two float64 entries are the same number: [Q] has several fractions
    for one number, so finite entries are compared with [==]. *)
Definition npfloat_eq (x y : npfloat) : Prop :=
  match x, y with
  | Finite a, Finite b => a == b
  | PInf, PInf | NInf, NInf | NaN, NaN => True
  | _, _ => False
  end.

Definition value_eq (x y : value) : Prop :=
  match x, y with
  | VScalar a, VScalar b => a == b
  | VArray xs, VArray ys => Forall2 npfloat_eq xs ys
  | _, _ => False
  end.

(** Two calls end the same way: the same exception, or the same value. *)
Definition same_outcome (x y : result value) : Prop :=
  match x, y with
  | Ok a, Ok b => value_eq a b
  | Raise e1, Raise e2 => e1 = e2
  | _, _ => False
  end.

End Equivalence.

(** * Properties *)

Lemma is_zero_true x : is_zero x = true <-> x == 0.
Proof. unfold is_zero. apply Qeq_bool_iff. Qed.

Lemma is_zero_false x : is_zero x = false <-> ~ x == 0.
Proof.
  unfold is_zero. split; intro H.
  - intro E. apply Qeq_bool_iff in E. congruence.
  - destruct (Qeq_bool x 0) eqn:E; [|reflexivity].
    apply Qeq_bool_iff in E. contradiction.
Qed.

Lemma square_zero x : x ^ 2 == 0 <-> x == 0.
Proof.
  simpl. split; intro H.
  - destruct (Qmult_integral _ _ H); assumption.
  - rewrite H. reflexivity.
Qed.

Module GravityFacts.
Import Gravity.

Section Scalars.

Variable c_G_value : Q.

(** The scalar path, unfolded: a zero square raises, anything else is the
    quotient. *)
Lemma universal_gravity_scalar (G : option Q) (m1 m2 r : Q) :
  universal_gravity c_G_value (Scalar m1) (Scalar m2) (Scalar r) G =
  let g := match G with Some g => g | None => c_G_value end in
  if is_zero (r ^ 2) then Raise ZeroDivisionError
  else Ok (VScalar (g * (m1 * m2) / r ^ 2)).
Proof. reflexivity. Qed.

(** C5: with scalar masses, whatever they are, a zero separation raises
    ZeroDivisionError; nothing is returned. *)
Theorem C5_zero_separation_raises (G : option Q) (m1 m2 r : Q)
  (Hr : r == 0) :
  universal_gravity c_G_value (Scalar m1) (Scalar m2) (Scalar r) G
  = Raise ZeroDivisionError.
Proof.
  rewrite universal_gravity_scalar. cbv zeta.
  assert (Hz : is_zero (r ^ 2) = true).
  { apply is_zero_true. rewrite square_zero. exact Hr. }
  rewrite Hz. reflexivity.
Qed.

End Scalars.

Lemma C5_witness :
  0 # 7 == 0 /\
  universal_gravity G_2018 (Scalar 3) (Scalar 5) (Scalar (0 # 7)) None
  = Raise ZeroDivisionError.
Proof.
  split.
  - reflexivity.
  - apply (C5_zero_separation_raises G_2018 None 3 5 (0 # 7)). reflexivity.
Defined.

Section Arrays.

Lemma nth_error_zip {A} (f : Q -> Q -> A) xs ys i a b :
  nth_error xs i = Some a -> nth_error ys i = Some b ->
  nth_error (map (fun p => f (fst p) (snd p)) (combine xs ys)) i
  = Some (f a b).
Proof.
  revert ys i. induction xs as [|x xs IH]; intros ys i Ha Hb.
  - destruct i; discriminate.
  - destruct ys as [|y ys]; [destruct i; discriminate|].
    destruct i as [|i]; simpl in *.
    + congruence.
    + apply IH; assumption.
Qed.

Lemma length_zip {A} (f : Q -> Q -> A) xs ys :
  List.length xs = List.length ys ->
  List.length (map (fun p => f (fst p) (snd p)) (combine xs ys))
  = List.length ys.
Proof.
  intro H. rewrite length_map, length_combine, H. apply Nat.min_id.
Qed.

Lemma broadcast2_same {A} (f : Q -> Q -> A) xs ys :
  List.length xs = List.length ys ->
  broadcast2 f xs ys = Ok (map (fun p => f (fst p) (snd p)) (combine xs ys)).
Proof.
  intro H. unfold broadcast2. rewrite H, Nat.eqb_refl. reflexivity.
Qed.

(** The product [G * (m1 * m2)] on operands that fit [n] entries: it
    succeeds, fits [n] entries and holds the entry-wise product. *)
Lemma numerator_fits (g : Q) (m1 m2 : operand) (n : nat) :
  fits n m1 -> fits n m2 ->
  exists num,
    (m12 <- mul m1 m2 ;; mul (Scalar g) m12) = Ok num
    /\ fits n num
    /\ forall i a b, entry i m1 = Some a -> entry i m2 = Some b ->
                     (i < n)%nat -> entry i num = Some (g * (a * b)).
Proof.
  intros H1 H2. destruct m1 as [x|xs], m2 as [y|ys]; cbn [fits entry mul bind] in *.
  - eexists. split; [reflexivity|]. split; [exact I|].
    intros i a b Ha Hb _. cbn [entry].
    injection Ha as <-. injection Hb as <-. reflexivity.
  - eexists. split; [reflexivity|]. split.
    + cbn [fits]. rewrite !length_map. exact H2.
    + intros i a b Ha Hb _. cbn [entry]. injection Ha as <-.
      rewrite nth_error_map, nth_error_map, Hb. reflexivity.
  - eexists. split; [reflexivity|]. split.
    + cbn [fits]. rewrite !length_map. exact H1.
    + intros i a b Ha Hb _. cbn [entry]. injection Hb as <-.
      rewrite nth_error_map, nth_error_map, Ha. reflexivity.
  - rewrite broadcast2_same by congruence. cbn [bind mul].
    eexists. split; [reflexivity|]. split.
    + cbn [fits]. rewrite length_map, length_zip by congruence. exact H2.
    + intros i a b Ha Hb _. cbn [entry].
      rewrite nth_error_map, (nth_error_zip Qmult xs ys i a b Ha Hb).
      reflexivity.
Qed.

(** The array path, entry by entry: with a separation array [rs] and
    masses that fit its shape, nothing is raised and entry [i] of the
    result is numpy's quotient of [G * (m1 * m2)] by [r ** 2]. *)
Lemma universal_gravity_array (c_G_value : Q) (G : option Q)
  (m1 m2 : operand) (rs : list Q) :
  fits (List.length rs) m1 -> fits (List.length rs) m2 ->
  exists out,
    universal_gravity c_G_value m1 m2 (Array rs) G = Ok (VArray out)
    /\ List.length out = List.length rs
    /\ forall i a b r,
        entry i m1 = Some a -> entry i m2 = Some b ->
        nth_error rs i = Some r ->
        nth_error out i
        = Some (np_divide
                  (match G with Some g => g | None => c_G_value end
                   * (a * b)) (r ^ 2)).
Proof.
  intros H1 H2. unfold universal_gravity.
  set (g := match G with Some g => g | None => c_G_value end).
  destruct (numerator_fits g m1 m2 _ H1 H2) as (num & Hnum & Hfit & Hent).
  unfold bind in Hnum |- *.
  destruct (mul m1 m2) as [m12|e]; [|discriminate].
  rewrite Hnum. clear Hnum.
  assert (Hlt : forall i r, nth_error rs i = Some r ->
                            (i < List.length rs)%nat).
  { intros i r Hi. apply nth_error_Some. congruence. }
  destruct num as [x|xs]; cbn [fits entry truediv pow2 bind] in *.
  - eexists. split; [reflexivity|]. split.
    + rewrite !length_map. reflexivity.
    + intros i a b r Ha Hb Hr.
      rewrite !nth_error_map, Hr. cbn [option_map].
      specialize (Hent i a b Ha Hb (Hlt _ _ Hr)). congruence.
  - rewrite broadcast2_same by (rewrite length_map; exact Hfit). cbn [bind].
    eexists. split; [reflexivity|]. split.
    + rewrite length_zip by (rewrite length_map; exact Hfit).
      apply length_map.
    + intros i a b r Ha Hb Hr.
      apply nth_error_zip.
      * apply (Hent i a b Ha Hb (Hlt _ _ Hr)).
      * rewrite nth_error_map, Hr. reflexivity.
Qed.



End Arrays.



End GravityFacts.

(** * The force law in floating point *)

Module GravityFloatFacts.
Import GravityFloat.
Local Open Scope Z_scope.










Section WithConstants.

Variable c_G_value : float.

Let force := universal_gravity c_G_value.
Let constant (G : option float) : float :=
  match G with Some g => g | None => c_G_value end.


End WithConstants.



End GravityFloatFacts.

Module ObjectFacts.
Import SolarSystemObjects.
Local Open Scope string_scope.

Section Summary.

Variable str_float : Q -> string.
Variable str_array : ndarray -> string.
Variables M_sun M_jup M_earth : Q.

Let repr := repr str_float str_array M_sun M_jup M_earth.

(** The six-field template given four arguments stops at field 4. *)
Lemma summary_raises (unit_name n : string) (x m : Q) (p v : ndarray)
  (Hunit : In unit_name ["kg"; "M_jup"; "M_earth"; "M_pluto"]) :
  summary str_float str_array unit_name n x (instance m p v n)
  = Raise (replacement_index_error 4).
Proof.
  simpl in Hunit.
  destruct Hunit as [<-|[<-|[<-|[<-|[]]]]]; reflexivity.
Qed.

(** C1 (as the code behaves): on a fully constructed body of any class
    other than Star the textual summary returns no string, it raises; for
    the classes that report kilograms or Pluto masses the exception is the
    IndexError of a format template with six fields and four arguments. *)
Theorem C1_repr_raises (m : Q) (p v : ndarray) (n : string) :
  Forall (fun c => exists e, repr c (instance m p v n) = Raise e)
    [SolarSystemObject; Planet; GasPlanet; TerrestrialPlanet; DwarfPlanet;
     Asteroid; Comet]
  /\ Forall (fun c => repr c (instance m p v n)
                      = Raise (replacement_index_error 4))
       [SolarSystemObject; Planet; DwarfPlanet; Asteroid; Comet].
Proof.
  assert (Hkg : SolarSystemObject__repr__ str_float str_array
                  (instance m p v n) = Raise (replacement_index_error 4)).
  { reflexivity. }
  assert (Hpluto : DwarfPlanet__repr__ str_float str_array
                     (instance m p v n) = Raise (replacement_index_error 4)).
  { reflexivity. }
  split.
  - repeat constructor; try (eexists; first [exact Hkg | exact Hpluto]).
    + unfold repr, SolarSystemObjects.repr. cbn [resolve mro mro_from base
        find defines]. unfold GasPlanet__repr__. cbn [getattr instance mass
        name bind]. unfold truediv.
      destruct (is_zero M_jup); cbn [bind]; eexists; [reflexivity|].
      apply summary_raises. simpl. tauto.
    + unfold repr, SolarSystemObjects.repr. cbn [resolve mro mro_from base
        find defines]. unfold TerrestrialPlanet__repr__. cbn [getattr
        instance mass name bind]. unfold truediv.
      destruct (is_zero M_earth); cbn [bind]; eexists; [reflexivity|].
      apply summary_raises. simpl. tauto.
  - repeat constructor; first [exact Hkg | exact Hpluto].
Qed.

(** For contrast: the summary of a Star has two fields and two arguments
    and is returned. *)
Lemma Star_repr_ok (m : Q) (p v : ndarray) (n : string) :
  ~ M_sun == 0 ->
  repr Star (instance m p v n)
  = Ok (n ++ ": Mass = " ++ str_float (m / M_sun) ++ " M_sun").
Proof.
  intro H. apply is_zero_false in H.
  unfold repr, SolarSystemObjects.repr. cbn [resolve mro mro_from base
    find defines]. unfold Star__repr__. cbn [getattr instance mass name
    bind]. unfold truediv. rewrite H. cbn [bind]. unfold format.
  cbn [format_from nth_error bind]. reflexivity.
Qed.

End Summary.

Section Construction.

(** Every class but Star constructs through the base initialiser, with
    the default name of the signature it resolves to. *)
Lemma construct_base (c : class) (a : call) :
  c <> Star ->
  construct c a
  = SolarSystemObject__init__ (a_mass a) (a_position a) (a_velocity a)
      (default (signature_name c) (a_name a)).
Proof.
  intro Hc. destruct c; try reflexivity. contradiction.
Qed.

(** The three ways the base initialiser ends. *)
Lemma init_bad_position m p vel nm o g :
  accepted (Some p) = false ->
  SolarSystemObject__init__ m (Some p) vel nm {| self := o; random := g |}
  = (Raise (shape_error "position" p),
     {| self := {| mass := Some m; position := Some (asarray p);
                   velocity := velocity o; name := name o |};
        random := g |}).
Proof.
  unfold accepted. intro H. apply negb_false_iff in H.
  unfold SolarSystemObject__init__, bindM, set_mass, set_position, raise.
  cbn [self random mass position velocity name]. rewrite H. reflexivity.
Qed.

Lemma init_bad_velocity m pos v nm o g :
  accepted pos = true -> accepted (Some v) = false ->
  SolarSystemObject__init__ m pos (Some v) nm {| self := o; random := g |}
  = (Raise (shape_error "velocity" v),
     {| self := {| mass := Some m;
                   position :=
                     Some (fst (stored MINIMUM_SIZE MAXIMUM_SIZE pos g));
                   velocity := Some (asarray v); name := name o |};
        random := snd (stored MINIMUM_SIZE MAXIMUM_SIZE pos g) |}).
Proof.
  unfold accepted. intros Hp Hv. apply negb_false_iff in Hv.
  unfold SolarSystemObject__init__, bindM, set_mass, set_position,
    set_velocity, rand, raise, ret, stored.
  destruct pos as [p|]; cbn [self random mass position velocity name].
  - apply negb_true_iff in Hp. rewrite Hp.
    cbn [self random mass position velocity name]. rewrite Hv. reflexivity.
  - cbn [np_random_rand fst snd self random mass position velocity name].
    rewrite Hv. reflexivity.
Qed.

Lemma init_ok m pos vel nm o g :
  accepted pos = true -> accepted vel = true ->
  let sp := stored MINIMUM_SIZE MAXIMUM_SIZE pos g in
  let sv := stored MINIMUM_VELOCITY MAXIMUM_VELOCITY vel (snd sp) in
  SolarSystemObject__init__ m pos vel nm {| self := o; random := g |}
  = (Ok tt, {| self := instance m (fst sp) (fst sv) nm; random := snd sv |}).
Proof.
  unfold accepted. intros Hp Hv.
  unfold SolarSystemObject__init__, bindM, set_mass, set_position,
    set_velocity, set_name, rand, raise, ret, stored, instance.
  destruct pos as [p|], vel as [v|];
    cbn [np_random_rand fst snd self random mass position velocity name];
    repeat match goal with
           | H : negb _ = true |- _ => apply negb_true_iff in H; rewrite H
           end;
    reflexivity.
Qed.

(** C7: constructing a Star, whatever its mass and name, stores the zero
    2-vector as position and as velocity and leaves the random state
    untouched: no draw is made. *)
Theorem C7_Star_pinned_to_zero (m : Q) (n : option string) (g : rng) :
  new Star {| a_mass := m; a_position := None; a_velocity := None;
              a_name := n |} g
  = (Ok tt,
     {| self := instance m (Arr1 [0; 0]) (Arr1 [0; 0]) (default "Star" n);
        random := g |}).
Proof. reflexivity. Qed.

(** C8 (as the code behaves): a Planet, GasPlanet, TerrestrialPlanet or
    DwarfPlanet constructed without a name is named "Object", the default
    of the base initialiser, since Planet defines no initialiser of its
    own; the other classes get their own default. *)
Theorem C8_default_names (m : Q) (g : rng) :
  let unnamed := {| a_mass := m; a_position := None; a_velocity := None;
                    a_name := None |} in
  Forall (fun c => name (self (snd (new c unnamed g))) = Some "Object")
    [Planet; GasPlanet; TerrestrialPlanet; DwarfPlanet]
  /\ name (self (snd (new SolarSystemObject unnamed g))) = Some "Object"
  /\ name (self (snd (new Star unnamed g))) = Some "Star"
  /\ name (self (snd (new Asteroid unnamed g))) = Some "Asteroid"
  /\ name (self (snd (new Comet unnamed g))) = Some "Comet".
Proof.
  cbv zeta. repeat split; repeat constructor.
Qed.

Lemma new_base (c : class) (a : call) (g : rng) :
  c <> Star ->
  new c a g
  = SolarSystemObject__init__ (a_mass a) (a_position a) (a_velocity a)
      (default (signature_name c) (a_name a))
      {| self := fresh; random := g |}.
Proof. intro Hc. unfold new. rewrite construct_base by exact Hc. reflexivity. Qed.

Lemma accepted_small p :
  (size (asarray p) < 2)%nat -> accepted (Some p) = false.
Proof.
  intro H. unfold accepted. apply negb_false_iff, Nat.ltb_lt. exact H.
Qed.

Lemma accepted_large p :
  (2 <= size (asarray p))%nat -> accepted (Some p) = true.
Proof.
  intro H. unfold accepted. apply negb_true_iff, Nat.ltb_ge. exact H.
Qed.

(** C2 (as the code behaves): when a supplied position or velocity has
    size below 2, construction of a class other than Star raises the
    TypeError for the first such field with the name still unassigned
    (and, for position, the velocity unassigned and no random draw made);
    the mass and the offending field itself, converted to an array, are
    already assigned at that point. *)
Theorem C2_state_when_shape_error_raised
  (c : class) (m : Q) (nm : option string) (g : rng) (Hc : c <> Star) :
  (forall p vel,
      (size (asarray p) < 2)%nat ->
      new c {| a_mass := m; a_position := Some p; a_velocity := vel;
               a_name := nm |} g
      = (Raise (shape_error "position" p),
         {| self := {| mass := Some m; position := Some (asarray p);
                       velocity := None; name := None |};
            random := g |}))
  /\ (forall pos v,
         accepted pos = true -> (size (asarray v) < 2)%nat ->
         let r := new c {| a_mass := m; a_position := pos;
                           a_velocity := Some v; a_name := nm |} g in
         fst r = Raise (shape_error "velocity" v)
         /\ name (self (snd r)) = None
         /\ mass (self (snd r)) = Some m
         /\ velocity (self (snd r)) = Some (asarray v)
         /\ position (self (snd r))
            = Some (fst (stored MINIMUM_SIZE MAXIMUM_SIZE pos g))).
Proof.
  split.
  - intros p vel Hp. rewrite new_base by exact Hc.
    cbn [a_mass a_position a_velocity a_name].
    rewrite init_bad_position by (apply accepted_small; exact Hp).
    reflexivity.
  - intros pos v Hpos Hv. cbv zeta. rewrite new_base by exact Hc.
    cbn [a_mass a_position a_velocity a_name].
    rewrite init_bad_velocity by (try apply accepted_small; assumption).
    repeat split.
Qed.

(** C3: for every class other than Star, a scalar position and a
    one-component position raise the TypeError for position; a scalar or
    one-component velocity (the position being acceptable) raises the one
    for velocity; and a field that is left out never gets its error, so a
    call that leaves both out succeeds. *)
Theorem C3_scalar_and_short_vectors_raise
  (c : class) (m : Q) (nm : option string) (g : rng) (Hc : c <> Star) :
  let run pos vel :=
    fst (new c {| a_mass := m; a_position := pos; a_velocity := vel;
                  a_name := nm |} g) in
  (forall x vel,
      run (Some (PyFloat x)) vel
      = Raise (shape_error "position" (PyFloat x)))
  /\ (forall x vel,
         run (Some (PyList [x])) vel
         = Raise (shape_error "position" (PyList [x])))
  /\ (forall pos x,
         accepted pos = true ->
         run pos (Some (PyFloat x))
         = Raise (shape_error "velocity" (PyFloat x)))
  /\ (forall pos x,
         accepted pos = true ->
         run pos (Some (PyList [x]))
         = Raise (shape_error "velocity" (PyList [x])))
  /\ (forall vel p, run None vel <> Raise (shape_error "position" p))
  /\ (forall pos v, run pos None <> Raise (shape_error "velocity" v))
  /\ run None None = Ok tt.
Proof.
  cbv zeta.
  assert (Hpos : forall p vel, accepted (Some p) = false ->
            fst (new c {| a_mass := m; a_position := Some p;
                          a_velocity := vel; a_name := nm |} g)
            = Raise (shape_error "position" p)).
  { intros p vel H. rewrite new_base by exact Hc.
    cbn [a_mass a_position a_velocity a_name].
    rewrite init_bad_position by exact H. reflexivity. }
  assert (Hvel : forall pos v, accepted pos = true ->
            accepted (Some v) = false ->
            fst (new c {| a_mass := m; a_position := pos;
                          a_velocity := Some v; a_name := nm |} g)
            = Raise (shape_error "velocity" v)).
  { intros pos v H1 H2. rewrite new_base by exact Hc.
    cbn [a_mass a_position a_velocity a_name].
    rewrite init_bad_velocity by assumption. reflexivity. }
  assert (Hok : forall pos vel, accepted pos = true -> accepted vel = true ->
            fst (new c {| a_mass := m; a_position := pos;
                          a_velocity := vel; a_name := nm |} g) = Ok tt).
  { intros pos vel H1 H2. rewrite new_base by exact Hc.
    cbn [a_mass a_position a_velocity a_name].
    rewrite init_ok by assumption. reflexivity. }
  repeat split.
  - intros x vel. apply Hpos. reflexivity.
  - intros x vel. apply Hpos. reflexivity.
  - intros pos x H. apply Hvel; [exact H | reflexivity].
  - intros pos x H. apply Hvel; [exact H | reflexivity].
  - intros vel p.
    destruct vel as [v|].
    + destruct (accepted (Some v)) eqn:Hv.
      * rewrite Hok by (reflexivity || exact Hv). discriminate.
      * rewrite Hvel by (reflexivity || exact Hv).
        intro H. injection H as H. symmetry in H.
        revert H. unfold shape_error. cbn [append]. discriminate.
    + rewrite Hok by reflexivity. discriminate.
  - intros pos v.
    destruct pos as [p|].
    + destruct (accepted (Some p)) eqn:Hp.
      * rewrite Hok by (reflexivity || exact Hp). discriminate.
      * rewrite Hpos by exact Hp.
        intro H. injection H as H.
        revert H. unfold shape_error. cbn [append]. discriminate.
    + rewrite Hok by reflexivity. discriminate.
  - apply Hok; reflexivity.
Qed.

(** C10: for every class other than Star, a supplied position or velocity
    of size at least 2, one of three components included, is accepted and
    stored as the array of the supplied values, unchanged; construction
    succeeds exactly when no supplied field has size below 2. *)
Theorem C10_vectors_of_size_two_or_more_stored
  (c : class) (m : Q) (nm : option string) (g : rng) (Hc : c <> Star) :
  let run pos vel :=
    new c {| a_mass := m; a_position := pos; a_velocity := vel;
             a_name := nm |} g in
  (forall p v,
      (2 <= size (asarray p))%nat -> (2 <= size (asarray v))%nat ->
      run (Some p) (Some v)
      = (Ok tt,
         {| self := instance m (asarray p) (asarray v)
                      (default (signature_name c) nm);
            random := g |}))
  /\ (forall p vel,
         (2 <= size (asarray p))%nat -> accepted vel = true ->
         fst (run (Some p) vel) = Ok tt
         /\ position (self (snd (run (Some p) vel))) = Some (asarray p))
  /\ (forall pos v,
         accepted pos = true -> (2 <= size (asarray v))%nat ->
         fst (run pos (Some v)) = Ok tt
         /\ velocity (self (snd (run pos (Some v)))) = Some (asarray v))
  /\ (forall x y z vel,
         accepted vel = true ->
         position (self (snd (run (Some (PyList [x; y; z])) vel)))
         = Some (Arr1 [x; y; z]))
  /\ (forall xs, entries (asarray (PyList xs)) = xs)
  /\ (forall pos vel,
         fst (run pos vel) = Ok tt
         <-> accepted pos && accepted vel = true)
  /\ (forall p, accepted (Some p) = false <-> (size (asarray p) < 2)%nat).
Proof.
  cbv zeta.
  assert (Hok : forall pos vel, accepted pos = true -> accepted vel = true ->
            new c {| a_mass := m; a_position := pos; a_velocity := vel;
                     a_name := nm |} g
            = (Ok tt,
               {| self :=
                    instance m
                      (fst (stored MINIMUM_SIZE MAXIMUM_SIZE pos g))
                      (fst (stored MINIMUM_VELOCITY MAXIMUM_VELOCITY vel
                              (snd (stored MINIMUM_SIZE MAXIMUM_SIZE pos g))))
                      (default (signature_name c) nm);
                  random :=
                    snd (stored MINIMUM_VELOCITY MAXIMUM_VELOCITY vel
                           (snd (stored MINIMUM_SIZE MAXIMUM_SIZE pos g)))
               |})).
  { intros pos vel H1 H2. rewrite new_base by exact Hc.
    cbn [a_mass a_position a_velocity a_name].
    rewrite init_ok by assumption. reflexivity. }
  split; [|split; [|split; [|split; [|split; [|split]]]]].
  - intros p v Hp Hv.
    rewrite Hok by (apply accepted_large; assumption). reflexivity.
  - intros p vel Hp Hv.
    rewrite Hok by (try apply accepted_large; assumption).
    split; reflexivity.
  - intros pos v Hp Hv.
    rewrite Hok by (try apply accepted_large; assumption).
    split; reflexivity.
  - intros x y z vel Hv. rewrite Hok by (reflexivity || exact Hv).
    reflexivity.
  - reflexivity.
  - intros pos vel. split.
    + intro H. apply andb_true_iff.
      destruct (accepted pos) eqn:Hp.
      * destruct (accepted vel) eqn:Hv; [split; reflexivity|].
        destruct vel as [v|]; [|discriminate Hv].
        rewrite new_base in H by exact Hc.
        cbn [a_mass a_position a_velocity a_name] in H.
        rewrite init_bad_velocity in H by assumption. discriminate H.
      * destruct pos as [p|]; [|discriminate Hp].
        rewrite new_base in H by exact Hc.
        cbn [a_mass a_position a_velocity a_name] in H.
        rewrite init_bad_position in H by assumption. discriminate H.
    + intro H. apply andb_true_iff in H. destruct H as [Hp Hv].
      rewrite Hok by assumption. reflexivity.
  - intro p. unfold accepted. rewrite negb_false_iff. apply Nat.ltb_lt.
Qed.

Lemma size_in_range (u : Q) :
  0 <= u < 1 ->
  MINIMUM_SIZE <= (MAXIMUM_SIZE - MINIMUM_SIZE) * u + MINIMUM_SIZE
  <= MAXIMUM_SIZE.
Proof. unfold MINIMUM_SIZE, MAXIMUM_SIZE. intros [H0 H1]. split; lra. Qed.

Lemma velocity_in_range (u : Q) :
  0 <= u < 1 ->
  MINIMUM_VELOCITY
  <= (MAXIMUM_VELOCITY - MINIMUM_VELOCITY) * u + MINIMUM_VELOCITY
  <= MAXIMUM_VELOCITY.
Proof.
  unfold MINIMUM_VELOCITY, MAXIMUM_VELOCITY. intros [H0 H1]. split; lra.
Qed.

(** The draws are the same sequence before and after a field is stored. *)
Lemma stored_draws lo hi p g : draws (snd (stored lo hi p g)) = draws g.
Proof. destruct p; reflexivity. Qed.

(** C9: in a body of a class other than Star, a position that is left out
    is stored as two entries within [MINIMUM_SIZE, MAXIMUM_SIZE] and a
    velocity that is left out as two entries within [MINIMUM_VELOCITY,
    MAXIMUM_VELOCITY], provided every uniform draw lies in [0, 1); the
    bounds are 0.3 and 50 AU, 20 and 50 km/s. *)
Theorem C9_defaults_within_bounds
  (c : class) (m : Q) (nm : option string) (g : rng) (Hc : c <> Star)
  (Hu : forall i, 0 <= draws g i < 1) :
  let run pos vel :=
    snd (new c {| a_mass := m; a_position := pos; a_velocity := vel;
                  a_name := nm |} g) in
  (forall vel, exists x y,
      position (self (run None vel)) = Some (Arr1 [x; y])
      /\ (MINIMUM_SIZE <= x <= MAXIMUM_SIZE)
      /\ (MINIMUM_SIZE <= y <= MAXIMUM_SIZE))
  /\ (forall pos, accepted pos = true -> exists x y,
         velocity (self (run pos None)) = Some (Arr1 [x; y])
         /\ (MINIMUM_VELOCITY <= x <= MAXIMUM_VELOCITY)
         /\ (MINIMUM_VELOCITY <= y <= MAXIMUM_VELOCITY))
  /\ (MINIMUM_SIZE == 3 # 10 /\ MAXIMUM_SIZE == 50
      /\ MINIMUM_VELOCITY == 20 /\ MAXIMUM_VELOCITY == 50).
Proof.
  cbv zeta. split; [|split].
  - intro vel. rewrite new_base by exact Hc.
    cbn [a_mass a_position a_velocity a_name].
    exists ((MAXIMUM_SIZE - MINIMUM_SIZE) * draws g (cursor g)
            + MINIMUM_SIZE),
           ((MAXIMUM_SIZE - MINIMUM_SIZE) * draws g (S (cursor g))
            + MINIMUM_SIZE).
    split; [|split; apply size_in_range; apply Hu].
    destruct (accepted vel) eqn:Hv.
    + rewrite init_ok by (reflexivity || exact Hv). reflexivity.
    + destruct vel as [v|]; [|discriminate Hv].
      rewrite init_bad_velocity by (reflexivity || exact Hv). reflexivity.
  - intros pos Hp. rewrite new_base by exact Hc.
    cbn [a_mass a_position a_velocity a_name].
    rewrite init_ok by (reflexivity || exact Hp).
    set (g1 := snd (stored MINIMUM_SIZE MAXIMUM_SIZE pos g)).
    exists ((MAXIMUM_VELOCITY - MINIMUM_VELOCITY) * draws g1 (cursor g1)
            + MINIMUM_VELOCITY),
           ((MAXIMUM_VELOCITY - MINIMUM_VELOCITY) * draws g1 (S (cursor g1))
            + MINIMUM_VELOCITY).
    split; [reflexivity|].
    unfold g1. rewrite stored_draws.
    split; apply velocity_in_range; apply Hu.
  - repeat split; reflexivity.
Qed.

End Construction.

Lemma Comet_not_Star : Comet <> Star.
Proof. discriminate. Qed.

Lemma sample_rng_uniform : forall i, 0 <= draws sample_rng i < 1.
Proof.
  intro i. cbn [draws sample_rng]. unfold Qle, Qlt. cbn [Qnum Qden].
  pose proof (Nat.mod_upper_bound i 4). lia.
Qed.

(** The construction [SolarSystemObject(200., 2., [20., 30.])] of the
    tests: the TypeError for position is raised on an instance whose mass
    and position are assigned already. *)
Lemma C2_counterexample :
  let r := new SolarSystemObject
             {| a_mass := 200; a_position := Some (PyFloat 2);
                a_velocity := Some (PyList [20; 30]); a_name := None |}
             sample_rng in
  lt (size (asarray (PyFloat 2))) 2
  /\ fst r = Raise (shape_error "position" (PyFloat 2))
  /\ mass (self (snd r)) = Some 200
  /\ position (self (snd r)) = Some (Arr0 2)
  /\ self (snd r) <> fresh.
Proof.
  cbv zeta. split; [cbn; lia|]. split; [reflexivity|].
  split; [reflexivity|]. split; [reflexivity|].
  intro H. apply (f_equal mass) in H. discriminate H.
Qed.

Lemma C2_witness :
  Comet <> Star /\
  lt (size (asarray (PyList [2]))) 2 /\
  new Comet {| a_mass := 200; a_position := Some (PyList [2]);
               a_velocity := Some (PyList [20; 30]); a_name := None |}
    sample_rng
  = (Raise (shape_error "position" (PyList [2])),
     {| self := {| mass := Some 200; position := Some (Arr1 [2]);
                   velocity := None; name := None |};
        random := sample_rng |}).
Proof.
  split; [exact Comet_not_Star|]. split; [cbn; lia|].
  apply (proj1 (C2_state_when_shape_error_raised Comet 200 None sample_rng
                  Comet_not_Star)).
  cbn. lia.
Defined.

Lemma C3_witness :
  Comet <> Star /\
  fst (new Comet {| a_mass := 200; a_position := Some (PyFloat 2);
                    a_velocity := Some (PyList [20; 30]); a_name := None |}
         sample_rng)
  = Raise (shape_error "position" (PyFloat 2)).
Proof.
  split; [exact Comet_not_Star|].
  apply (proj1 (C3_scalar_and_short_vectors_raise Comet 200 None sample_rng
                  Comet_not_Star)).
Defined.

Lemma C9_witness :
  Comet <> Star /\ (forall i, 0 <= draws sample_rng i < 1) /\
  exists x y,
    position (self (snd (new Comet
                           {| a_mass := 200; a_position := None;
                              a_velocity := None; a_name := None |}
                           sample_rng))) = Some (Arr1 [x; y])
    /\ (MINIMUM_SIZE <= x <= MAXIMUM_SIZE)
    /\ (MINIMUM_SIZE <= y <= MAXIMUM_SIZE).
Proof.
  split; [exact Comet_not_Star|]. split; [exact sample_rng_uniform|].
  apply (proj1 (C9_defaults_within_bounds Comet 200 None sample_rng
                  Comet_not_Star sample_rng_uniform)).
Defined.

(** [Star(200., position=[2., 6.])]: the position has size 2, yet the
    construction raises and nothing is stored, since the signature of
    [Star.__init__] has no such parameter. *)
Lemma C10_counterexample :
  le 2 (size (asarray (PyList [2; 6])))
  /\ new Star {| a_mass := 200; a_position := Some (PyList [2; 6]);
                 a_velocity := None; a_name := None |} sample_rng
     = (Raise (unexpected_argument "position"),
        {| self := fresh; random := sample_rng |}).
Proof. split; [cbn; lia | reflexivity]. Qed.

Lemma C10_witness :
  Comet <> Star /\
  le 2 (size (asarray (PyList [2; 6; 1]))) /\
  le 2 (size (asarray (PyList [20; 30]))) /\
  new Comet {| a_mass := 200; a_position := Some (PyList [2; 6; 1]);
               a_velocity := Some (PyList [20; 30]); a_name := None |}
    sample_rng
  = (Ok tt,
     {| self := instance 200 (Arr1 [2; 6; 1]) (Arr1 [20; 30]) "Comet";
        random := sample_rng |}).
Proof.
  split; [exact Comet_not_Star|].
  split; [cbn; lia|]. split; [cbn; lia|].
  apply (proj1 (C10_vectors_of_size_two_or_more_stored Comet 200 None
                  sample_rng Comet_not_Star)); cbn; lia.
Defined.

End ObjectFacts.

(** * Further properties of the force law *)

Module GravityLaws.
Import Gravity Equivalence GravityFacts.

Section Arrays.

Variable c_G_value : Q.

Let force := universal_gravity c_G_value.
Let constant (G : option Q) : Q :=
  match G with Some g => g | None => c_G_value end.

Lemma np_divide_compat n n' d :
  n == n' -> npfloat_eq (np_divide n d) (np_divide n' d).
Proof.
  intro H. unfold np_divide.
  assert (Hz : is_zero n = is_zero n').
  { unfold is_zero. destruct (Qeq_bool n 0) eqn:E1, (Qeq_bool n' 0) eqn:E2;
      try reflexivity.
    - apply Qeq_bool_iff in E1. rewrite H in E1.
      apply Qeq_bool_iff in E1. congruence.
    - apply Qeq_bool_iff in E2. rewrite <- H in E2.
      apply Qeq_bool_iff in E2. congruence. }
  assert (Hl : Qle_bool 0 n = Qle_bool 0 n').
  { destruct (Qle_bool 0 n) eqn:E1, (Qle_bool 0 n') eqn:E2; try reflexivity.
    - apply Qle_bool_iff in E1. rewrite H in E1.
      apply Qle_bool_iff in E1. congruence.
    - apply Qle_bool_iff in E2. rewrite <- H in E2.
      apply Qle_bool_iff in E2. congruence. }
  rewrite Hz, Hl.
  destruct (is_zero d); [destruct (is_zero n'); [exact I|]|].
  - destruct (Qle_bool 0 n'); exact I.
  - simpl. rewrite H. reflexivity.
Qed.

Lemma Forall2_nth_error {A} (R : A -> A -> Prop) (l1 l2 : list A) :
  List.length l1 = List.length l2 ->
  (forall i x y, nth_error l1 i = Some x -> nth_error l2 i = Some y -> R x y)
  -> Forall2 R l1 l2.
Proof.
  revert l2. induction l1 as [|a l1 IH]; intros [|b l2] Hlen H;
    try discriminate Hlen.
  - constructor.
  - constructor.
    + apply (H 0%nat); reflexivity.
    + apply IH; [injection Hlen; auto|].
      intros i x y Hx Hy. apply (H (S i)); assumption.
Qed.

Lemma entry_fits n m i :
  fits n m -> (i < n)%nat -> exists a, entry i m = Some a.
Proof.
  destruct m as [x|xs]; cbn [fits entry]; intros Hf Hi.
  - eexists. reflexivity.
  - destruct (nth_error xs i) eqn:E; [eexists; reflexivity|].
    apply nth_error_None in E. lia.
Qed.

(** X1: the force does not depend on the order of the two masses.  On
    the scalar path both orders raise alike or return the same number; with
    a separation array and masses of its shape both orders return arrays
    with the same entries. *)
Theorem X1_symmetric_in_masses (G : option Q) (m1 m2 : operand)
  (rs : list Q)
  (H1 : fits (List.length rs) m1) (H2 : fits (List.length rs) m2) :
  (forall a b r,
      same_outcome (force (Scalar a) (Scalar b) (Scalar r) G)
                   (force (Scalar b) (Scalar a) (Scalar r) G))
  /\ same_outcome (force m1 m2 (Array rs) G) (force m2 m1 (Array rs) G).
Proof.
  split.
  - intros a b r. unfold force. rewrite !universal_gravity_scalar.
    cbv zeta. destruct (is_zero (r ^ 2)) eqn:Hz.
    + reflexivity.
    + cbn [same_outcome value_eq]. field.
      apply is_zero_false in Hz. rewrite square_zero in Hz. exact Hz.
  - destruct (universal_gravity_array c_G_value G m1 m2 rs H1 H2)
      as (o1 & E1 & L1 & N1).
    destruct (universal_gravity_array c_G_value G m2 m1 rs H2 H1)
      as (o2 & E2 & L2 & N2).
    unfold force. rewrite E1, E2. cbn [same_outcome value_eq].
    apply Forall2_nth_error; [congruence|].
    intros i x y Hx Hy.
    assert (Hi : (i < List.length rs)%nat).
    { rewrite <- L1. apply nth_error_Some. congruence. }
    destruct (entry_fits _ _ _ H1 Hi) as [a Ha].
    destruct (entry_fits _ _ _ H2 Hi) as [b Hb].
    destruct (nth_error rs i) as [r|] eqn:Hr;
      [|apply nth_error_None in Hr; lia].
    rewrite (N1 i a b r Ha Hb Hr) in Hx.
    rewrite (N2 i b a r Hb Ha Hr) in Hy.
    injection Hx as <-. injection Hy as <-.
    apply np_divide_compat. ring.
Qed.

Lemma broadcast2_outcome {A} (f : Q -> Q -> A) xs ys :
  (exists l, broadcast2 f xs ys = Ok l)
  \/ broadcast2 f xs ys = Raise broadcast_error.
Proof.
  unfold broadcast2.
  destruct (Nat.eqb (List.length xs) (List.length ys));
    [left; eexists; reflexivity|].
  destruct xs as [|x [|x' xs]], ys as [|y [|y' ys]];
    first [left; eexists; reflexivity | right; reflexivity].
Qed.

Lemma broadcast2_mismatch {A} (f : Q -> Q -> A) xs ys :
  List.length xs <> List.length ys ->
  List.length xs <> 1%nat -> List.length ys <> 1%nat ->
  broadcast2 f xs ys = Raise broadcast_error.
Proof.
  intros Hne Hx Hy. unfold broadcast2.
  apply Nat.eqb_neq in Hne. rewrite Hne.
  destruct xs as [|x [|x' xs]], ys as [|y [|y' ys]];
    cbn [List.length] in *; try reflexivity; congruence.
Qed.

(** X4: with a separation array the call never raises ZeroDivisionError,
    whatever the masses, the shapes and the separations: it returns an
    array, or raises the ValueError of shapes that do not broadcast. *)
Theorem X4_array_path_outcomes (G : option Q) (m1 m2 : operand)
  (rs : list Q) :
  (exists out, force m1 m2 (Array rs) G = Ok (VArray out))
  \/ force m1 m2 (Array rs) G = Raise broadcast_error.
Proof.
  unfold force, universal_gravity.
  set (g := match G with Some g => g | None => c_G_value end).
  destruct m1 as [x|xs], m2 as [y|ys]; cbn [mul bind pow2 truediv].
  - left. eexists. reflexivity.
  - destruct (broadcast2_outcome np_divide (map (Qmult g) (map (Qmult x) ys))
                (map (fun x => x ^ 2) rs)) as [[l E]|E]; rewrite E.
    + left. eexists. reflexivity.
    + right. reflexivity.
  - destruct (broadcast2_outcome np_divide
                (map (Qmult g) (map (fun x => x * y) xs))
                (map (fun x => x ^ 2) rs)) as [[l E]|E]; rewrite E.
    + left. eexists. reflexivity.
    + right. reflexivity.
  - destruct (broadcast2_outcome Qmult xs ys) as [[l E]|E]; rewrite E;
      cbn [mul bind truediv].
    + destruct (broadcast2_outcome np_divide (map (Qmult g) l)
                  (map (fun x => x ^ 2) rs)) as [[l' E']|E']; rewrite E'.
      * left. eexists. reflexivity.
      * right. reflexivity.
    + right. reflexivity.
Qed.

(** X5: shapes that do not broadcast raise ValueError.  Two mass arrays
    of different lengths, neither of length 1, fail whatever the
    separation is, a zero scalar included; a mass array against a
    separation array of another length fails likewise. *)
Theorem X5_shape_mismatch_raises (G : option Q) (xs ys : list Q)
  (Hne : List.length xs <> List.length ys)
  (Hx : List.length xs <> 1%nat) (Hy : List.length ys <> 1%nat) :
  (forall r, force (Array xs) (Array ys) r G = Raise broadcast_error)
  /\ (forall m, force (Array xs) (Scalar m) (Array ys) G
                = Raise broadcast_error)
  /\ (forall m, force (Scalar m) (Array xs) (Array ys) G
                = Raise broadcast_error).
Proof.
  unfold force, universal_gravity. repeat split.
  - intro r. cbn [mul]. rewrite broadcast2_mismatch by assumption.
    reflexivity.
  - intro m. cbn [mul bind pow2 truediv].
    rewrite broadcast2_mismatch by (rewrite !length_map; assumption).
    reflexivity.
  - intro m. cbn [mul bind pow2 truediv].
    rewrite broadcast2_mismatch by (rewrite !length_map; assumption).
    reflexivity.
Qed.

(** X7: a zero separation never yields an infinity of the wrong sign.
    With a separation array and masses of its shape, an entry at a zero
    separation is +inf only where G * m1 * m2 is positive and -inf only
    where it is negative; where that product is zero the entry is nan. *)
Theorem X7_zero_separation_entries (G : option Q) (m1 m2 : operand)
  (rs : list Q)
  (H1 : fits (List.length rs) m1) (H2 : fits (List.length rs) m2) :
  exists out,
    force m1 m2 (Array rs) G = Ok (VArray out)
    /\ forall i a b r,
        entry i m1 = Some a -> entry i m2 = Some b ->
        nth_error rs i = Some r -> r == 0 ->
        (nth_error out i = Some PInf -> 0 < constant G * (a * b))
        /\ (nth_error out i = Some NInf -> constant G * (a * b) < 0)
        /\ (constant G * (a * b) == 0 -> nth_error out i = Some NaN).
Proof.
  destruct (universal_gravity_array c_G_value G m1 m2 rs H1 H2)
    as (out & E & L & N).
  exists out. split; [exact E|].
  intros i a b r Ha Hb Hr Hz.
  rewrite (N i a b r Ha Hb Hr). fold (constant G).
  set (n := constant G * (a * b)).
  assert (Hz2 : is_zero (r ^ 2) = true).
  { apply is_zero_true, square_zero. exact Hz. }
  unfold np_divide. rewrite Hz2.
  destruct (is_zero n) eqn:E0.
  - split; [intro H; discriminate H|].
    split; [intro H; discriminate H|]. intros _. reflexivity.
  - apply is_zero_false in E0.
    destruct (Qle_bool 0 n) eqn:E1.
    + apply Qle_bool_iff in E1.
      split; [|split; [intro H; discriminate H|intro H; contradiction]].
      intros _. apply Qle_lteq in E1. destruct E1 as [E1|E1]; [exact E1|].
      exfalso. apply E0. symmetry. exact E1.
    + split; [intro H; discriminate H|].
      split; [|intro H; contradiction].
      intros _. apply Qnot_le_lt. intro H.
      apply Qle_bool_iff in H. congruence.
Qed.

End Arrays.

Lemma X1_witness :
  fits 2 (Array [3; 4]) /\ fits 2 (Scalar 5) /\
  same_outcome
    (universal_gravity G_2018 (Array [3; 4]) (Scalar 5) (Array [2; 0]) None)
    (universal_gravity G_2018 (Scalar 5) (Array [3; 4]) (Array [2; 0]) None).
Proof.
  split; [reflexivity|]. split; [exact I|].
  apply (proj2 (X1_symmetric_in_masses G_2018 None (Array [3; 4]) (Scalar 5)
                  [2; 0] eq_refl I)).
Defined.

Lemma X5_witness :
  List.length [1; 2; 3] <> List.length [4; 5] /\
  List.length [1; 2; 3] <> 1%nat /\ List.length [4; 5] <> 1%nat /\
  universal_gravity G_2018 (Array [1; 2; 3]) (Array [4; 5]) (Scalar 0) None
  = Raise broadcast_error.
Proof.
  split; [discriminate|]. split; [discriminate|]. split; [discriminate|].
  apply (proj1 (X5_shape_mismatch_raises G_2018 None [1; 2; 3] [4; 5]
                  ltac:(discriminate) ltac:(discriminate)
                  ltac:(discriminate))).
Defined.

Lemma X7_witness :
  fits 2 (Array [3; 0]) /\ fits 2 (Scalar 5) /\
  exists out,
    universal_gravity G_2018 (Array [3; 0]) (Scalar 5) (Array [0; 0]) None
    = Ok (VArray out)
    /\ nth_error out 1 = Some NaN.
Proof.
  split; [reflexivity|]. split; [exact I|].
  destruct (X7_zero_separation_entries G_2018 None (Array [3; 0]) (Scalar 5)
              [0; 0] eq_refl I) as (out & E & H).
  exists out. split; [exact E|].
  apply (H 1%nat 0 5 0 eq_refl eq_refl eq_refl); reflexivity.
Defined.

End GravityLaws.

(** * Further properties of the bodies *)

Module ObjectLaws.
Import SolarSystemObjects ObjectFacts.
Local Open Scope string_scope.

Section Construction.

Lemma accepted_size p : accepted (Some p) = true -> (2 <= size (asarray p))%nat.
Proof.
  unfold accepted. rewrite negb_true_iff. apply Nat.ltb_ge.
Qed.

Lemma stored_size lo hi p g :
  accepted p = true -> (2 <= size (fst (stored lo hi p g)))%nat.
Proof.
  destruct p as [p|]; intro H.
  - apply accepted_size. exact H.
  - cbn. lia.
Qed.

(** How a construction of a class other than Star ends, by the fields
    that fail the size test. *)
Lemma new_cases (c : class) (a : call) (g : rng) :
  c <> Star ->
  match accepted (a_position a), accepted (a_velocity a) with
  | true, true =>
      let sp := stored MINIMUM_SIZE MAXIMUM_SIZE (a_position a) g in
      let sv := stored MINIMUM_VELOCITY MAXIMUM_VELOCITY (a_velocity a)
                  (snd sp) in
      new c a g
      = (Ok tt,
         {| self := instance (a_mass a) (fst sp) (fst sv)
                      (default (signature_name c) (a_name a));
            random := snd sv |})
  | true, false =>
      exists v, a_velocity a = Some v
      /\ new c a g
         = (Raise (shape_error "velocity" v),
            {| self :=
                 {| mass := Some (a_mass a);
                    position :=
                      Some (fst (stored MINIMUM_SIZE MAXIMUM_SIZE
                                   (a_position a) g));
                    velocity := Some (asarray v); name := None |};
               random := snd (stored MINIMUM_SIZE MAXIMUM_SIZE
                                (a_position a) g) |})
  | false, _ =>
      exists p, a_position a = Some p
      /\ new c a g
         = (Raise (shape_error "position" p),
            {| self := {| mass := Some (a_mass a);
                          position := Some (asarray p);
                          velocity := None; name := None |};
               random := g |})
  end.
Proof.
  intro Hc. rewrite new_base by exact Hc.
  destruct (accepted (a_position a)) eqn:Hp.
  - destruct (accepted (a_velocity a)) eqn:Hv.
    + cbv zeta. rewrite init_ok by assumption. reflexivity.
    + destruct (a_velocity a) as [v|] eqn:Ev; [|discriminate Hv].
      exists v. split; [reflexivity|].
      rewrite init_bad_velocity by assumption. reflexivity.
  - destruct (a_position a) as [p|] eqn:Ep; [|discriminate Hp].
    exists p. split; [reflexivity|].
    rewrite init_bad_position by assumption. reflexivity.
Qed.

(** How a construction of a Star ends. *)
Lemma new_Star (a : call) (g : rng) :
  match a_position a, a_velocity a with
  | None, None =>
      new Star a g
      = (Ok tt,
         {| self := instance (a_mass a) (zeros 2) (zeros 2)
                      (default "Star" (a_name a));
            random := g |})
  | _, _ =>
      exists e, new Star a g = (Raise e, {| self := fresh; random := g |})
  end.
Proof.
  unfold new, construct. cbn [resolve mro mro_from base find defines].
  destruct (a_position a), (a_velocity a);
    first [reflexivity | eexists; reflexivity].
Qed.

(** X8: whatever the class, a construction that succeeds leaves a body
    with all four attributes assigned: the mass as given, the name as
    given or the default of the signature, and a position and a velocity
    of size at least 2, equal to the arrays of the arguments that were
    supplied. *)
Theorem X8_constructed_body (c : class) (a : call) (g : rng)
  (Hok : fst (new c a g) = Ok tt) :
  exists p v,
    self (snd (new c a g))
    = instance (a_mass a) p v (default (signature_name c) (a_name a))
    /\ (2 <= size p)%nat /\ (2 <= size v)%nat
    /\ (forall q, a_position a = Some q -> p = asarray q)
    /\ (forall q, a_velocity a = Some q -> v = asarray q).
Proof.
  destruct (class_eq_dec c Star) as [->|Hc].
  - pose proof (new_Star a g) as H.
    destruct (a_position a) as [p|] eqn:Ep.
    + destruct H as [e H]. rewrite H in Hok. discriminate Hok.
    + destruct (a_velocity a) as [v|] eqn:Ev.
      * destruct H as [e H]. rewrite H in Hok. discriminate Hok.
      * rewrite H. exists (zeros 2), (zeros 2).
        split; [reflexivity|]. split; [cbn; lia|]. split; [cbn; lia|].
        split; intros q Hq; discriminate Hq.
  - pose proof (new_cases c a g Hc) as H.
    destruct (accepted (a_position a)) eqn:Hp.
    + destruct (accepted (a_velocity a)) eqn:Hv.
      * cbv zeta in H. rewrite H. cbn [snd self].
        eexists. eexists. split; [reflexivity|].
        split; [apply stored_size; exact Hp|].
        split; [apply stored_size; exact Hv|].
        split; intros q Hq; rewrite Hq; reflexivity.
      * destruct H as (v & _ & H). rewrite H in Hok. discriminate Hok.
    + destruct H as (p & _ & H). rewrite H in Hok. discriminate Hok.
Qed.

(** X9: the name is assigned last.  Whatever the class and the
    arguments, after a construction the name attribute is assigned exactly
    when the construction succeeded; a construction that raised leaves it
    unassigned. *)
Theorem X9_name_assigned_iff_constructed (c : class) (a : call) (g : rng) :
  (fst (new c a g) = Ok tt
   -> name (self (snd (new c a g)))
      = Some (default (signature_name c) (a_name a)))
  /\ ((exists e, fst (new c a g) = Raise e)
      -> name (self (snd (new c a g))) = None)
  /\ (fst (new c a g) = Ok tt \/ exists e, fst (new c a g) = Raise e).
Proof.
  destruct (class_eq_dec c Star) as [->|Hc].
  - pose proof (new_Star a g) as H.
    destruct (a_position a) as [p|]; [|destruct (a_velocity a) as [v|]].
    + destruct H as [e H]. rewrite H. cbn [fst snd self name fresh].
      repeat split; try discriminate. right. eexists. reflexivity.
    + destruct H as [e H]. rewrite H. cbn [fst snd self name fresh].
      repeat split; try discriminate. right. eexists. reflexivity.
    + rewrite H. cbn [fst snd self name instance].
      repeat split; try (intros [e' He']; discriminate He').
      left. reflexivity.
  - pose proof (new_cases c a g Hc) as H.
    destruct (accepted (a_position a));
      [destruct (accepted (a_velocity a))|].
    + cbv zeta in H. rewrite H. cbn [fst snd self name instance].
      repeat split; try (intros [e' He']; discriminate He').
      left. reflexivity.
    + destruct H as (v & _ & H). rewrite H. cbn [fst snd self name].
      repeat split; try discriminate. right. eexists. reflexivity.
    + destruct H as (p & _ & H). rewrite H. cbn [fst snd self name].
      repeat split; try discriminate. right. eexists. reflexivity.
Qed.

(** X10: the random draws a construction consumes.  The sequence of
    draws is never altered, only advanced: by 2 for a position left out,
    and by 2 for a velocity left out provided the position passed the size
    test; a supplied field consumes none, a Star none at all.  A call that
    fails on its velocity has still consumed the draws of its position. *)
Theorem X10_draws_consumed (c : class) (a : call) (g : rng) :
  let consumed :=
    match c with
    | Star => 0
    | _ =>
        (match a_position a with None => 2 | Some _ => 0 end
         + match a_velocity a with
           | None => if accepted (a_position a) then 2 else 0
           | Some _ => 0
           end)
    end%nat in
  draws (random (snd (new c a g))) = draws g
  /\ cursor (random (snd (new c a g))) = (cursor g + consumed)%nat.
Proof.
  cbv zeta.
  destruct (class_eq_dec c Star) as [->|Hc].
  - pose proof (new_Star a g) as H.
    destruct (a_position a) as [p|]; [|destruct (a_velocity a) as [v|]].
    + destruct H as [e H]. rewrite H. cbn [snd random].
      split; [reflexivity|lia].
    + destruct H as [e H]. rewrite H. cbn [snd random].
      split; [reflexivity|lia].
    + rewrite H. cbn [snd random]. split; [reflexivity|lia].
  - assert (E : forall n : nat,
               match c with Star => 0%nat | _ => n end = n).
    { intro n. destruct c; try reflexivity. contradiction. }
    rewrite E. clear E.
    pose proof (new_cases c a g Hc) as H.
    destruct (a_position a) as [p|] eqn:Ep, (a_velocity a) as [v|] eqn:Ev;
      cbn [accepted] in H |- *;
      repeat match type of H with
             | context [negb ?b] => destruct (negb b)
             end;
      cbv zeta in H;
      repeat match type of H with
             | exists _, _ => let x := fresh in destruct H as (x & _ & H)
             end;
      rewrite H; cbn [snd random stored np_random_rand draws cursor fst];
      split; try reflexivity; lia.
Qed.

(** X11: which draw feeds which axis.  In a class other than Star, with
    both fields left out, the position takes the next two draws and the
    velocity the two after them; with an acceptable position supplied, the
    velocity takes the next two draws instead. *)
Theorem X11_default_values (c : class) (m : Q) (nm : option string)
  (g : rng) (Hc : c <> Star) :
  let u i := draws g (cursor g + i)%nat in
  let ps x := (MAXIMUM_SIZE - MINIMUM_SIZE) * x + MINIMUM_SIZE in
  let vs x := (MAXIMUM_VELOCITY - MINIMUM_VELOCITY) * x + MINIMUM_VELOCITY in
  self (snd (new c {| a_mass := m; a_position := None; a_velocity := None;
                      a_name := nm |} g))
  = instance m (Arr1 [ps (u 0%nat); ps (u 1%nat)])
      (Arr1 [vs (u 2%nat); vs (u 3%nat)]) (default (signature_name c) nm)
  /\ (forall p, accepted (Some p) = true ->
        self (snd (new c {| a_mass := m; a_position := Some p;
                            a_velocity := None; a_name := nm |} g))
        = instance m (asarray p) (Arr1 [vs (u 0%nat); vs (u 1%nat)])
            (default (signature_name c) nm)).
Proof.
  cbv zeta. split.
  - rewrite new_base by exact Hc. cbn [a_mass a_position a_velocity a_name].
    rewrite init_ok by reflexivity.
    cbn [snd self stored np_random_rand fst scale_shift seq map draws cursor].
    rewrite !Nat.add_0_r.
    replace (S (cursor g)) with (cursor g + 1)%nat by lia.
    replace (S (cursor g + 2)) with (cursor g + 3)%nat by lia.
    reflexivity.
  - intros p Hp. rewrite new_base by exact Hc.
    cbn [a_mass a_position a_velocity a_name].
    rewrite init_ok by (reflexivity || exact Hp).
    cbn [snd self stored np_random_rand fst scale_shift seq map draws cursor].
    rewrite !Nat.add_0_r.
    replace (S (cursor g)) with (cursor g + 1)%nat by lia.
    reflexivity.
Qed.

(** X13: the classes other than Star differ in nothing but the default
    name.  Given the same arguments with an explicit name, any two of them
    construct the same body, consume the same draws and fail alike. *)
Theorem X13_classes_agree_on_named_bodies (c d : class) (m : Q)
  (pos vel : option array_like) (n : string) (g : rng)
  (Hc : c <> Star) (Hd : d <> Star) :
  new c {| a_mass := m; a_position := pos; a_velocity := vel;
           a_name := Some n |} g
  = new d {| a_mass := m; a_position := pos; a_velocity := vel;
             a_name := Some n |} g.
Proof.
  rewrite (new_base c) by exact Hc. rewrite (new_base d) by exact Hd.
  reflexivity.
Qed.

End Construction.

Section Summary.

Variable str_float : Q -> string.
Variable str_array : ndarray -> string.
Variables M_sun M_jup M_earth : Q.

Let repr := repr str_float str_array M_sun M_jup M_earth.

(** X12: the summary of a constructed Star.  Whatever the mass, the name
    and the random state, a Star that has just been constructed prints as
    its name and its mass in solar masses, with no position or velocity in
    the string; were the solar mass constant zero, it would raise
    ZeroDivisionError. *)
Theorem X12_Star_summary (m : Q) (n : option string) (g : rng) :
  let star := self (snd (new Star {| a_mass := m; a_position := None;
                                     a_velocity := None; a_name := n |} g)) in
  (~ M_sun == 0 ->
   repr Star star
   = Ok (default "Star" n ++ ": Mass = " ++ str_float (m / M_sun)
           ++ " M_sun"))
  /\ (M_sun == 0 -> repr Star star = Raise ZeroDivisionError).
Proof.
  cbv zeta.
  change (self (snd (new Star {| a_mass := m; a_position := None;
                                 a_velocity := None; a_name := n |} g)))
    with (instance m (zeros 2) (zeros 2) (default "Star" n)).
  unfold repr, SolarSystemObjects.repr.
  cbn [resolve mro mro_from base find defines].
  unfold Star__repr__. cbn [getattr instance mass name bind].
  unfold truediv. split; intro H.
  - apply is_zero_false in H. rewrite H. reflexivity.
  - apply is_zero_true in H. rewrite H. reflexivity.
Qed.

End Summary.

Lemma Asteroid_not_Star : Asteroid <> Star.
Proof. discriminate. Qed.

Lemma Planet_not_Star : Planet <> Star.
Proof. discriminate. Qed.

Lemma X8_witness :
  fst (new Planet {| a_mass := 200; a_position := Some (PyList [2; 6]);
                     a_velocity := None; a_name := None |} sample_rng)
  = Ok tt
  /\ exists p v,
      self (snd (new Planet {| a_mass := 200;
                               a_position := Some (PyList [2; 6]);
                               a_velocity := None; a_name := None |}
                   sample_rng))
      = instance 200 p v "Object"
      /\ (2 <= size p)%nat /\ (2 <= size v)%nat.
Proof.
  split; [reflexivity|].
  destruct (X8_constructed_body Planet
              {| a_mass := 200; a_position := Some (PyList [2; 6]);
                 a_velocity := None; a_name := None |} sample_rng eq_refl)
    as (p & v & E & Hp & Hv & _).
  exists p, v. split; [exact E|]. split; assumption.
Defined.

Lemma X9_witness :
  (exists e,
      fst (new Asteroid {| a_mass := 200; a_position := None;
                           a_velocity := Some (PyFloat 20);
                           a_name := Some "Ceres" |} sample_rng) = Raise e)
  /\ name (self (snd (new Asteroid
                        {| a_mass := 200; a_position := None;
                           a_velocity := Some (PyFloat 20);
                           a_name := Some "Ceres" |} sample_rng))) = None.
Proof.
  assert (H : exists e,
             fst (new Asteroid {| a_mass := 200; a_position := None;
                                  a_velocity := Some (PyFloat 20);
                                  a_name := Some "Ceres" |} sample_rng)
             = Raise e).
  { eexists. reflexivity. }
  split; [exact H|].
  apply (proj1 (proj2 (X9_name_assigned_iff_constructed Asteroid
                         {| a_mass := 200; a_position := None;
                            a_velocity := Some (PyFloat 20);
                            a_name := Some "Ceres" |} sample_rng)) H).
Defined.

Lemma X11_witness :
  Asteroid <> Star /\
  self (snd (new Asteroid {| a_mass := 200; a_position := None;
                             a_velocity := None; a_name := None |}
               sample_rng))
  = instance 200
      (Arr1 [(MAXIMUM_SIZE - MINIMUM_SIZE) * draws sample_rng (0 + 0)
             + MINIMUM_SIZE;
             (MAXIMUM_SIZE - MINIMUM_SIZE) * draws sample_rng (0 + 1)
             + MINIMUM_SIZE])
      (Arr1 [(MAXIMUM_VELOCITY - MINIMUM_VELOCITY) * draws sample_rng (0 + 2)
             + MINIMUM_VELOCITY;
             (MAXIMUM_VELOCITY - MINIMUM_VELOCITY) * draws sample_rng (0 + 3)
             + MINIMUM_VELOCITY])
      "Asteroid".
Proof.
  split; [exact Asteroid_not_Star|].
  apply (proj1 (X11_default_values Asteroid 200 None sample_rng
                  Asteroid_not_Star)).
Defined.

Lemma X12_witness :
  ~ 2 == 0 /\
  repr (fun _ => "100.0") (fun _ => "[0. 0.]") 2 1 1 Star
    (self (snd (new Star {| a_mass := 200; a_position := None;
                            a_velocity := None; a_name := Some "Sol" |}
                  sample_rng)))
  = Ok "Sol: Mass = 100.0 M_sun".
Proof.
  assert (H : ~ 2 == 0) by (intro E; discriminate E).
  split; [exact H|].
  apply (proj1 (X12_Star_summary (fun _ => "100.0") (fun _ => "[0. 0.]")
                  2 1 1 200 (Some "Sol") sample_rng) H).
Defined.

Lemma X13_witness :
  Asteroid <> Star /\ Planet <> Star /\
  new Asteroid {| a_mass := 200; a_position := Some (PyFloat 2);
                  a_velocity := None; a_name := Some "Vesta" |} sample_rng
  = new Planet {| a_mass := 200; a_position := Some (PyFloat 2);
                  a_velocity := None; a_name := Some "Vesta" |} sample_rng.
Proof.
  split; [exact Asteroid_not_Star|]. split; [exact Planet_not_Star|].
  apply (X13_classes_agree_on_named_bodies Asteroid Planet 200
           (Some (PyFloat 2)) None "Vesta" sample_rng
           Asteroid_not_Star Planet_not_Star).
Defined.

End ObjectLaws.

(** * The tests of the bodies *)

Module TestFacts.
Import SolarSystemObjects Tests.

(** X14: the two tests of the bodies pass whatever the constructors do,
    because they construct nothing.  The subscript [classes != sso.Star]
    is [True], so the loops run over [classes[1]], the class Star itself,
    which is not iterable: the TypeError that [pytest.raises] catches is
    raised by the [for] statement, before any call. *)
Theorem X14_body_tests_construct_nothing
  (call3 : pyobj -> Q -> array_like -> array_like -> result unit) :
  test_bad_position call3 = Passed
  /\ test_bad_velocity call3 = Passed
  /\ getitem (PyClasses classes) (py_ne (PyClasses classes) (PyClass Star))
     = Ok (PyClass Star)
  /\ iter (PyClass Star) = Raise (TypeError "'type' object is not iterable").
Proof. repeat split. Qed.

End TestFacts.
